(** * Recognition gateway: request forwarding and result normalization

    A shallow embedding of [src/main.py]: the two handlers
    [identify_by_url] and [identify_by_file] and the pure function
    [normalize_audd_result], followed by the properties the specification
    states about them.

    Conventions of the embedding.
    - A Python [str] is a [string] holding its UTF-8 encoding; JSON object
      keys and string literals of the source are written as they are.
    - A value produced by [r.json()] or returned by a handler is a [JSON]
      tree; a Python [dict] is a [gmap string JSON].
    - A handler is a function from the log of outbound requests issued so
      far to the extended log and either the exception it raises or the
      body it returns.  The recognition service is a function from the
      request it receives to what [requests.post] does with it. *)

From Stdlib Require Import ZArith Strings.String Strings.Ascii Strings.Byte Floats.SpecFloat.
From stdpp Require Import gmap strings list fin_maps.

Set Warnings "-register-all".

(** ** JSON values and the Python operations the source applies to them *)

Inductive JSON : Type :=
| JNull
| JBool (b : bool)
| JInt (z : Z)
| JFloat (f : spec_float)
| JString (s : string)
| JList (l : list JSON)
| JDict (d : gmap string JSON).

(** A dict display [{k1: v1, ..., kn: vn}]. *)
Definition dict (kvs : list (string * JSON)) : gmap string JSON :=
  list_to_map kvs.

(** [bool(v)]: None, False, zero, and the empty string, list and dict are
    false, everything else is true. *)
Definition truthy (v : JSON) : bool :=
  match v with
  | JNull => false
  | JBool b => b
  | JInt z => negb (z =? 0)%Z
  | JFloat (S754_zero _) => false
  | JFloat _ => true
  | JString s => negb (String.length s =? 0)%nat
  | JList l => negb (length l =? 0)%nat
  | JDict d => negb (size d =? 0)%nat
  end.

(** [a or b] on values. *)
Definition py_or (a b : JSON) : JSON := if truthy a then a else b.

(** [s or t] where [s] is an optional string ([None] or a [str]). *)
Definition str_truthy (s : string) : bool := negb (String.length s =? 0)%nat.

Definition opt_truthy (o : option string) : bool :=
  match o with
  | None => false
  | Some s => str_truthy s
  end.

Definition opt_or (o : option string) (t : string) : string :=
  match o with
  | Some s => if str_truthy s then s else t
  | None => t
  end.

(** [v != s] for a string literal [s]: only the string [s] itself is equal
    to it. *)
Definition ne_str (v : JSON) (s : string) : bool :=
  match v with
  | JString s' => negb (bool_decide (s' = s))
  | _ => true
  end.

Definition type_name (v : JSON) : string :=
  match v with
  | JNull => "NoneType"
  | JBool _ => "bool"
  | JInt _ => "int"
  | JFloat _ => "float"
  | JString _ => "str"
  | JList _ => "list"
  | JDict _ => "dict"
  end.

(** ** Exceptions *)

Inductive exn : Type :=
| HTTPException (status_code : Z) (detail : string)
| AttributeError (msg : string).

Definition Res (A : Type) : Type := exn + A.

#[global] Instance Res_ret : MRet Res := fun _ x => inr x.
#[global] Instance Res_bind : MBind Res := fun _ _ f m =>
  match m with
  | inl e => inl e
  | inr x => f x
  end.

(** [v.get(k)]: only a dict has the method; a missing key gives [None]. *)
Definition get (v : JSON) (k : string) : Res JSON :=
  match v with
  | JDict d => inr (default JNull (d !! k))
  | _ => inl (AttributeError
                ("'" +:+ type_name v +:+ "' object has no attribute 'get'"))
  end.

(** ** [normalize_audd_result] *)

Definition normalize_audd_result (result : JSON) : Res JSON :=
  title ← get result "title";
  artist ← get result "artist";
  album ← get result "album";
  release_date ← get result "release_date";
  timecode ← get result "timecode";
  song_link ← get result "song_link";
  apple_music ← (o ← get result "apple_music";
                 get (py_or o (JDict ∅)) "url");
  spotify ← (o ← get result "spotify";
             e ← get (py_or o (JDict ∅)) "external_urls";
             get (py_or e (JDict ∅)) "spotify");
  deezer ← (o ← get result "deezer";
            get (py_or o (JDict ∅)) "link");
  let links := dict [("apple_music", apple_music);
                     ("spotify", spotify);
                     ("deezer", deezer);
                     ("audd", song_link)] in
  mret (JDict (dict [("found", JBool true);
                     ("title", title);
                     ("artist", artist);
                     ("album", album);
                     ("release_date", release_date);
                     ("timecode", timecode);
                     ("links", JDict links)])).

(** ** [str.strip()]

    Python strips the characters for which [str.isspace] holds: U+0009 to
    U+000D, U+001C to U+0020, U+0085, U+00A0, U+1680, U+2000 to U+200A,
    U+2028, U+2029, U+202F, U+205F and U+3000.  On the UTF-8 encoding these
    are the one-, two- and three-byte sequences below. *)

Definition byte_in (lo hi : N) (a : ascii) : bool :=
  ((lo <=? N_of_ascii a) && (N_of_ascii a <=? hi))%N.

Definition isspace1 (a : ascii) : bool :=
  byte_in 9 13 a || byte_in 28 32 a.

Definition isspace2 (a b : ascii) : bool :=
  byte_in 194 194 a && (byte_in 133 133 b || byte_in 160 160 b).

Definition isspace3 (a b c : ascii) : bool :=
  byte_in 225 225 a && byte_in 154 154 b && byte_in 128 128 c
  || byte_in 226 226 a && byte_in 128 128 b
     && (byte_in 128 138 c || byte_in 168 169 c || byte_in 175 175 c)
  || byte_in 226 226 a && byte_in 129 129 b && byte_in 159 159 c
  || byte_in 227 227 a && byte_in 128 128 b && byte_in 128 128 c.

(** Drops leading whitespace; with [back] the string is read from its end,
    so the bytes of a sequence arrive in the opposite order. *)
Fixpoint skip_spaces (back : bool) (s : string) : string :=
  match s with
  | String a s1 =>
      if isspace1 a then skip_spaces back s1
      else
        match s1 with
        | String b s2 =>
            if (if back then isspace2 b a else isspace2 a b)
            then skip_spaces back s2
            else
              match s2 with
              | String c s3 =>
                  if (if back then isspace3 c b a else isspace3 a b c)
                  then skip_spaces back s3
                  else s
              | EmptyString => s
              end
        | EmptyString => s
        end
  | EmptyString => s
  end.

Definition lstrip (s : string) : string := skip_spaces false s.
Definition rstrip (s : string) : string :=
  String.rev (skip_spaces true (String.rev s)).
Definition strip (s : string) : string := rstrip (lstrip s).

Definition startswith (s p : string) : bool := String.prefix p s.

Definition str_or (s t : string) : string := if str_truthy s then s else t.

(** ** The outside world: the request body, the upload, the provider *)

Definition bytes : Type := list byte.

(** An exception raised inside a [try] block; the handler of the source
    reads only its text [str(e)]. *)
Definition Exception : Type := string.

Record IdentifyRequest : Type := { url : string }.

(** [UploadFile]: [read] is what [await file.read()] does, raise or
    return the content. *)
Record UploadFile : Type := {
  filename : option string;
  content_type : option string;
  read : Exception + bytes
}.

(** The arguments of one [requests.post] call. *)
Record Request : Type := {
  endpoint : string;
  data : list (string * option string);
  files : list (string * (string * bytes * string));
  timeout : Z
}.

(** [r.json()] raises when the body is not JSON and returns the decoded
    value otherwise. *)
Record Response : Type := { json : Exception + JSON }.

Inductive PostResult : Type :=
| post_raises (e : Exception)
| post_returns (r : Response).

(** ** Handlers: a log of outbound requests and an error *)

Definition Log : Type := list Request.
Definition M (E A : Type) : Type := Log → Log * (E + A).

#[global] Instance M_ret {E} : MRet (M E) := fun _ x log => (log, inr x).
#[global] Instance M_bind {E} : MBind (M E) := fun _ _ f m log =>
  match m log with
  | (log', inl e) => (log', inl e)
  | (log', inr x) => f x log'
  end.

Definition raise {E A} (e : E) : M E A := fun log => (log, inl e).
Definition lift {E A} (r : E + A) : M E A := fun log => (log, r).

(** [try: body  except Exception as e: handler e]. *)
Definition try_except {A} (body : M Exception A)
    (handler : Exception → M exn A) : M exn A :=
  fun log =>
    match body log with
    | (log', inl e) => handler e log'
    | (log', inr x) => (log', inr x)
    end.

Section Gateway.

(** [os.getenv("AUDD_API_TOKEN")], read once at start-up. *)
Variable AUDD_API_TOKEN : option string.

(** The recognition service behind [https://api.audd.io/]. *)
Variable provider : Request → PostResult.

Definition requests_post (req : Request) : M Exception Response :=
  fun log =>
    (log ++ [req],
     match provider req with
     | post_raises e => inl e
     | post_returns r => inr r
     end).

Definition url_request (u : string) : Request :=
  {| endpoint := "https://api.audd.io/";
     data := [("api_token", AUDD_API_TOKEN);
              ("url", Some u);
              ("return", Some "timecode,deezer,spotify,apple_music")];
     files := [];
     timeout := 30 |}.

Definition file_request (file : UploadFile) (content : bytes) : Request :=
  {| endpoint := "https://api.audd.io/";
     data := [("api_token", AUDD_API_TOKEN);
              ("return", Some "timecode,deezer,spotify,apple_music")];
     files := [("file", (opt_or (filename file) "clip.mp3",
                         content,
                         opt_or (content_type file) "audio/mpeg"))];
     timeout := 60 |}.

Definition identify_by_url (payload : IdentifyRequest) : M exn JSON :=
  if negb (opt_truthy AUDD_API_TOKEN) then
    raise (HTTPException 400 "AUDD_API_TOKEN env var is not set on the server")
  else
    let url := strip (str_or (url payload) "") in
    if negb (startswith url "http://" || startswith url "https://") then
      raise (HTTPException 422
               "Please provide a valid URL starting with http(s)://")
    else
      data ← try_except
               (r ← requests_post (url_request url);
                lift (json r))
               (λ e, raise (HTTPException 502
                      ("Failed contacting recognition service: " +:+ e)));
      bad ← (if negb (truthy data) then mret true
             else status ← lift (get data "status");
                  mret (ne_str status "success"));
      if (bad : bool) then
        raise (HTTPException 502 "Recognition service error")
      else
        result ← lift (get data "result");
        if negb (truthy result) then
          mret (JDict (dict [("found", JBool false)]))
        else
          lift (normalize_audd_result result).

Definition identify_by_file (file : UploadFile) : M exn JSON :=
  if negb (opt_truthy AUDD_API_TOKEN) then
    raise (HTTPException 400 "AUDD_API_TOKEN env var is not set on the server")
  else
    data ← try_except
             (content ← lift (read file);
              r ← requests_post (file_request file content);
              lift (json r))
             (λ e, raise (HTTPException 502
                    ("Failed contacting recognition service: " +:+ e)));
    bad ← (if negb (truthy data) then mret true
           else status ← lift (get data "status");
                mret (ne_str status "success"));
    if (bad : bool) then
      raise (HTTPException 502 "Recognition service error")
    else
      result ← lift (get data "result");
      if negb (truthy result) then
        mret (JDict (dict [("found", JBool false)]))
      else
        lift (normalize_audd_result result).

End Gateway.

(** ** The specification's reading of the normalizer

    [field] and [chain] follow the words of the specification: a link is
    read along a fixed chain of keys and is null as soon as an intermediate
    object is absent.  [spec_Normalize] is the result the specification
    describes; it is compared with [normalize_audd_result] below. *)

Definition field (v : JSON) (k : string) : JSON :=
  match v with
  | JDict d => default JNull (d !! k)
  | _ => JNull
  end.

Definition chain (v : JSON) (ks : list string) : JSON :=
  foldl field v ks.

Definition spec_links (result : JSON) : gmap string JSON :=
  dict [("apple_music", chain result ["apple_music"; "url"]);
        ("spotify", chain result ["spotify"; "external_urls"; "spotify"]);
        ("deezer", chain result ["deezer"; "link"]);
        ("audd", chain result ["song_link"])].

Definition spec_Normalize (result : JSON) : JSON :=
  JDict (dict [("found", JBool true);
               ("title", chain result ["title"]);
               ("artist", chain result ["artist"]);
               ("album", chain result ["album"]);
               ("release_date", chain result ["release_date"]);
               ("timecode", chain result ["timecode"]);
               ("links", JDict (spec_links result))]).

(** The chains of keys the normalizer reads. *)
Definition consumed_paths : list (list string) :=
  [["title"]; ["artist"]; ["album"]; ["release_date"]; ["timecode"];
   ["song_link"]; ["apple_music"; "url"];
   ["spotify"; "external_urls"; "spotify"]; ["deezer"; "link"]].

Definition top_keys : gset string :=
  {[ "found"; "title"; "artist"; "album"; "release_date"; "timecode";
     "links" ]}.

Definition link_keys : gset string :=
  {[ "apple_music"; "spotify"; "deezer"; "audd" ]}.

(** ** Well-formed provider results

    A nested service entry can be followed when it is an object or is
    absent; the source also accepts any other false value in its place
    ([x or {}]).  A provider result is well formed when it is an object
    whose [apple_music], [spotify] and [deezer] entries, and the
    [external_urls] entry of [spotify], can be followed. *)

Definition is_dict (v : JSON) : bool :=
  match v with
  | JDict _ => true
  | _ => false
  end.

Definition followable (v : JSON) : bool := is_dict (py_or v (JDict ∅)).

Definition well_formed (result : JSON) : bool :=
  is_dict result
  && followable (field result "apple_music")
  && followable (field result "spotify")
  && followable (field (field result "spotify") "external_urls")
  && followable (field result "deezer").

(** ** The handlers behind their guards

    [interpret] is what both handlers do with a decoded provider body and
    [attempt] what they do with the outcome of the [try] block; the
    [_unfold] lemmas show that the handlers are these functions behind
    their guards. *)

Definition recognition_error : exn :=
  HTTPException 502 "Recognition service error".

Definition interpret (data : JSON) : Res JSON :=
  if negb (truthy data) then inl recognition_error
  else
    status ← get data "status";
    if ne_str status "success" then inl recognition_error
    else
      result ← get data "result";
      if negb (truthy result) then inr (JDict (dict [("found", JBool false)]))
      else normalize_audd_result result.

Definition attempt (o : Exception + JSON) : Res JSON :=
  match o with
  | inl e =>
      inl (HTTPException 502 ("Failed contacting recognition service: " +:+ e))
  | inr data => interpret data
  end.

(** [requests.post(...)] followed by [r.json()]. *)
Definition fetch (provider : Request → PostResult) (req : Request)
    : Exception + JSON :=
  match provider req with
  | post_raises e => inl e
  | post_returns r => json r
  end.

Definition valid_url (u : string) : bool :=
  startswith (strip u) "http://" || startswith (strip u) "https://".

(** ** Sample data *)

Definition full_links_result : gmap string JSON :=
  dict [("apple_music", JDict (dict [("url", JString "A")]));
        ("spotify",
         JDict (dict [("external_urls",
                       JDict (dict [("spotify", JString "S")]))]));
        ("deezer", JDict (dict [("link", JString "D")]));
        ("song_link", JString "L")].

Definition title_only_result : gmap string JSON :=
  dict [("title", JString "T")].

Definition respond (o : Exception + JSON) : Request → PostResult :=
  fun _ => post_returns {| json := o |}.

Definition success_with (result : JSON) : JSON :=
  JDict (dict [("status", JString "success"); ("result", result)]).

Definition error_body : gmap string JSON :=
  dict [("status", JString "error"); ("result", JDict title_only_result)].


Definition provider_found : Request → PostResult :=
  respond (inr (success_with (JDict title_only_result))).
Definition provider_no_match : Request → PostResult :=
  respond (inr (success_with (JDict ∅))).
Definition provider_error : Request → PostResult :=
  respond (inr (JDict error_body)).

Definition sample_token : option string := Some "token".

Definition sample_payload : IdentifyRequest :=
  {| url := "  https://example.com/a.mp3 " |}.

Definition ftp_payload : IdentifyRequest :=
  {| url := "ftp://example.com/a.mp3" |}.

Definition sample_content : bytes := [x49; x44; x33].

Definition sample_clip : UploadFile :=
  {| filename := Some ""; content_type := None; read := inr sample_content |}.

(** ** The diagnostic endpoint [test_database]

    The handler reports on the configuration and on the optional module
    [database], which is not part of this file: what importing it does and
    what its object [db] answers are inputs of the model. *)

(** [s[:n]]: the first [n] characters of [s].  On the UTF-8 encoding a
    character starts at every byte that is not a continuation byte
    (0x80 to 0xBF). *)
Definition is_continuation (a : ascii) : bool := byte_in 128 191 a.

Fixpoint str_take (n : nat) (s : string) : string :=
  match s with
  | EmptyString => EmptyString
  | String a s' =>
      if is_continuation a then String a (str_take n s')
      else
        match n with
        | O => EmptyString
        | S n' => String a (str_take n' s')
        end
  end.


Module database.

(** The object [db]: [name] is [None] when [hasattr(db, 'name')] is false;
    [list_collection_names] raises or returns the list of names. *)
Record Db : Type := {
  name : option JSON;
  list_collection_names : Exception + list JSON
}.

End database.

(** What [from database import db] does: raise [ImportError], raise
    another exception, or bind [db], which may be [None]. *)
Inductive ImportResult : Type :=
| ImportError
| import_raises (e : Exception)
| imported (db : option database.Db).

Definition set_or_not (o : option string) : JSON :=
  JString (if opt_truthy o then "✅ Set" else "❌ Not Set").

Definition test_database (AUDD_API_TOKEN : option string)
    (import_db : ImportResult) (DATABASE_URL DATABASE_NAME : option string)
    : gmap string JSON :=
  let response :=
    dict [("backend", JString "✅ Running");
          ("database", JString "❌ Not Available");
          ("database_url", JNull);
          ("database_name", JNull);
          ("connection_status", JString "Not Connected");
          ("collections", JList []);
          ("audd_api_token", set_or_not AUDD_API_TOKEN)] in
  let response :=
    match import_db with
    | imported (Some db) =>
        let response := <["database" := JString "✅ Available"]> response in
        let response :=
          <["database_url" := JString "✅ Configured"]> response in
        let response :=
          <["database_name" :=
              match database.name db with
              | Some n => n
              | None => JString "✅ Connected"
              end]> response in
        let response :=
          <["connection_status" := JString "Connected"]> response in
        match database.list_collection_names db with
        | inr collections =>
            let response :=
              <["collections" := JList (take 10 collections)]> response in
            <["database" := JString "✅ Connected & Working"]> response
        | inl e =>
            <["database" :=
                JString ("⚠️  Connected but Error: " +:+ str_take 50 e)]> response
        end
    | imported None =>
        <["database" := JString "⚠️  Available but not initialized"]> response
    | ImportError =>
        <["database" := JString "❌ Database module not found (run enable-database first)"]> response
    | import_raises e =>
        <["database" := JString ("❌ Error: " +:+ str_take 50 e)]> response
    end in
  let response := <["database_url" := set_or_not DATABASE_URL]> response in
  let response := <["database_name" := set_or_not DATABASE_NAME]> response in
  response.

Definition diagnostic_keys : gset string :=
  {[ "backend"; "database"; "database_url"; "database_name";
     "connection_status"; "collections"; "audd_api_token" ]}.

(** ** Whitespace around a url *)

(** Strings made of ASCII whitespace only. *)
Fixpoint all_spaces (s : string) : bool :=
  match s with
  | EmptyString => true
  | String a s' => isspace1 a && all_spaces s'
  end.

(** ** More sample data *)

Definition provider_down : Request → PostResult :=
  fun _ => post_raises "Connection refused".

Definition provider_null : Request → PostResult := respond (inr JNull).

Definition provider_list : Request → PostResult :=
  respond (inr (JList [JInt 1])).

Definition bad_service_result : JSON :=
  JDict (dict [("title", JString "T"); ("apple_music", JString "x")]).

Definition provider_bad_service : Request → PostResult :=
  respond (inr (success_with bad_service_result)).

Definition unreadable_clip : UploadFile :=
  {| filename := Some "a.mp3"; content_type := Some "audio/mpeg";
     read := inl "closed file" |}.

Definition sample_db : database.Db :=
  {| database.name := Some (JString "music");
     database.list_collection_names :=
       inr (JString <$> ["a"; "b"; "c"; "d"; "e"; "f"; "g"; "h"; "i"; "j";
                         "k"; "l"]) |}.

Definition broken_db : database.Db :=
  {| database.name := None;
     database.list_collection_names := inl "not authorized" |}.



(** A body that decodes to the list [[{"status": "error"}]]. *)
Definition error_list : JSON :=
  JList [JDict (dict [("status", JString "error")])].

Definition provider_error_list : Request → PostResult :=
  respond (inr error_list).


(** * Properties *)

(** ** Python helpers *)

Lemma str_or_empty (s : string) : str_or s "" = s.
Proof. by destruct s. Qed.

Lemma opt_or_fallback (o : option string) (t : string) :
  opt_truthy o = false → opt_or o t = t.
Proof. destruct o as [s|]; [|done]. simpl. by intros ->. Qed.

Lemma opt_truthy_false (o : option string) :
  opt_truthy o = false ↔ o = None ∨ o = Some "".
Proof.
  split.
  - destruct o as [[|a s]|]; [by right|done|by left].
  - by intros [-> | ->].
Qed.

Lemma truthy_dict (d : gmap string JSON) :
  truthy (JDict d) = false ↔ d = ∅.
Proof.
  simpl. rewrite negb_false_iff, Nat.eqb_eq. apply map_size_empty_iff.
Qed.

Lemma get_dict (d : gmap string JSON) (k : string) :
  get (JDict d) k = inr (field (JDict d) k).
Proof. done. Qed.

Lemma get_not_dict (v : JSON) (k : string) :
  is_dict v = false → ∃ msg, get v k = inl (AttributeError msg).
Proof. destruct v; (done || by eexists). Qed.

(** [(v or {}).get(k)] reads the field when [v] can be followed. *)
Lemma get_or_field (v : JSON) (k : string) :
  followable v = true → get (py_or v (JDict ∅)) k = inr (field v k).
Proof.
  unfold followable, py_or.
  destruct (truthy v) eqn:Ht.
  - destruct v; done.
  - intros _. destruct v; try done.
    apply truthy_dict in Ht as ->. done.
Qed.

Lemma get_or_raises (v : JSON) (k : string) :
  followable v = false → ∃ msg, get (py_or v (JDict ∅)) k = inl (AttributeError msg).
Proof. apply get_not_dict. Qed.

(** ** The normalizer refines its specification *)

Lemma normalize_well_formed (result : JSON) :
  well_formed result = true →
  normalize_audd_result result = inr (spec_Normalize result).
Proof.
  unfold well_formed. rewrite !andb_true_iff.
  intros [[[[Hd Ha] Hs] He] Hz].
  destruct result as [| | | | | |d]; try done.
  unfold normalize_audd_result. rewrite !get_dict. cbn [mbind Res_bind].
  rewrite (get_or_field _ _ Ha). cbn [mbind Res_bind].
  rewrite (get_or_field _ _ Hs). cbn [mbind Res_bind].
  rewrite (get_or_field _ _ He). cbn [mbind Res_bind].
  rewrite (get_or_field _ _ Hz). cbn [mbind Res_bind].
  done.
Qed.

Lemma normalize_ill_formed (result : JSON) :
  well_formed result = false →
  ∃ msg, normalize_audd_result result = inl (AttributeError msg).
Proof.
  unfold well_formed, normalize_audd_result. intros H.
  destruct (is_dict result) eqn:Hd; cycle 1.
  { destruct (get_not_dict result "title" Hd) as [msg ->]. by eexists. }
  destruct result as [| | | | | |d]; try done. clear Hd.
  rewrite !get_dict. cbn [mbind Res_bind andb] in *.
  destruct (followable (field (JDict d) "apple_music")) eqn:Ha; cycle 1.
  { destruct (get_or_raises _ "url" Ha) as [msg ->]. by eexists. }
  rewrite (get_or_field _ _ Ha). cbn [mbind Res_bind andb] in *.
  destruct (followable (field (JDict d) "spotify")) eqn:Hs; cycle 1.
  { destruct (get_or_raises _ "external_urls" Hs) as [msg ->]. by eexists. }
  rewrite (get_or_field _ _ Hs). cbn [mbind Res_bind andb] in *.
  destruct (followable (field (field (JDict d) "spotify") "external_urls"))
    eqn:He; cycle 1.
  { destruct (get_or_raises _ "spotify" He) as [msg ->]. by eexists. }
  rewrite (get_or_field _ _ He). cbn [mbind Res_bind andb] in *.
  destruct (get_or_raises _ "link" H) as [msg ->]. by eexists.
Qed.

(** ** The handlers, case by case *)

Lemma identify_by_url_unfold tok provider payload log :
  identify_by_url tok provider payload log =
    if negb (opt_truthy tok) then
      (log, inl (HTTPException 400
                   "AUDD_API_TOKEN env var is not set on the server"))
    else if negb (valid_url (url payload)) then
      (log, inl (HTTPException 422
                   "Please provide a valid URL starting with http(s)://"))
    else
      let req := url_request tok (strip (url payload)) in
      (log ++ [req], attempt (fetch provider req)).
Proof.
  unfold identify_by_url, valid_url. rewrite str_or_empty.
  destruct (negb (opt_truthy tok)); [done|].
  destruct (negb _); [done|].
  unfold fetch, attempt, interpret, try_except, requests_post, lift, raise,
    mbind, mret, M_bind, M_ret, Res_bind.
  destruct (provider _) as [e|r]; [done|].
  destruct (json r) as [e|data]; [done|].
  destruct (negb (truthy data)); [done|].
  destruct (get data "status") as [e|status]; [done|].
  destruct (ne_str status "success"); [done|].
  destruct (get data "result") as [e|result]; [done|].
  by destruct (negb (truthy result)).
Qed.

Lemma identify_by_file_unfold tok provider file log :
  identify_by_file tok provider file log =
    if negb (opt_truthy tok) then
      (log, inl (HTTPException 400
                   "AUDD_API_TOKEN env var is not set on the server"))
    else
      match read file with
      | inl e => (log, attempt (inl e))
      | inr content =>
          let req := file_request tok file content in
          (log ++ [req], attempt (fetch provider req))
      end.
Proof.
  unfold identify_by_file.
  destruct (negb (opt_truthy tok)); [done|].
  unfold fetch, attempt, interpret, try_except, requests_post, lift, raise,
    mbind, mret, M_bind, M_ret, Res_bind.
  destruct (read file) as [e|content]; [done|].
  destruct (provider _) as [e|r]; [done|].
  destruct (json r) as [e|data]; [done|].
  destruct (negb (truthy data)); [done|].
  destruct (get data "status") as [e|status]; [done|].
  destruct (ne_str status "success"); [done|].
  destruct (get data "result") as [e|result]; [done|].
  by destruct (negb (truthy result)).
Qed.

(** ** Shape of the normalizer's output *)

Lemma normalize_returns (result body : JSON) :
  normalize_audd_result result = inr body →
  well_formed result = true ∧ body = spec_Normalize result.
Proof.
  intros H. destruct (well_formed result) eqn:Hw.
  - rewrite (normalize_well_formed _ Hw) in H. by injection H as <-.
  - destruct (normalize_ill_formed _ Hw) as [msg Hm]. congruence.
Qed.

Lemma spec_Normalize_keys (result : JSON) :
  ∃ out, spec_Normalize result = JDict out
    ∧ out !! "found" = Some (JBool true)
    ∧ dom out = top_keys
    ∧ out !! "links" = Some (JDict (spec_links result))
    ∧ dom (spec_links result) = link_keys.
Proof.
  eexists. split; [reflexivity|].
  unfold spec_links, dict. rewrite !dom_list_to_map_L.
  repeat split.
Qed.

Lemma chain_absent (d : gmap string JSON) (k : string) (ks : list string) :
  d !! k = None → chain (JDict d) (k :: ks) = JNull.
Proof.
  intros H. unfold chain. simpl. rewrite H. simpl.
  induction ks as [|k' ks IH]; [done|]. apply IH.
Qed.

(** C5. The normalizer is total on well-formed provider results: for every
    object whose nested service entries can be followed, whatever subset of
    the keys is present, it returns a result with [found] true and never
    raises; an absent scalar field, and a link whose top-level entry is
    absent, is null in the result. *)
Theorem normalize_total (d : gmap string JSON) :
  well_formed (JDict d) = true →
  ∃ out links,
    normalize_audd_result (JDict d) = inr (JDict out)
    ∧ out !! "found" = Some (JBool true)
    ∧ out !! "links" = Some (JDict links)
    ∧ (∀ k, k ∈ ["title"; "artist"; "album"; "release_date"; "timecode"] →
         d !! k = None → out !! k = Some JNull)
    ∧ (d !! "apple_music" = None → links !! "apple_music" = Some JNull)
    ∧ (d !! "spotify" = None → links !! "spotify" = Some JNull)
    ∧ (d !! "deezer" = None → links !! "deezer" = Some JNull)
    ∧ (d !! "song_link" = None → links !! "audd" = Some JNull).
Proof.
  intros Hw. rewrite (normalize_well_formed _ Hw).
  eexists _, (spec_links (JDict d)).
  split; [reflexivity|]. split; [reflexivity|]. split; [reflexivity|].
  split.
  - intros k Hk Hnone.
    repeat (apply elem_of_cons in Hk as [-> | Hk]);
      [..|by apply elem_of_nil in Hk];
      unfold dict; simpl; rewrite Hnone; reflexivity.
  - unfold spec_links, dict.
    repeat split; intros Hnone; rewrite (chain_absent _ _ _ Hnone);
      reflexivity.
Qed.

Lemma normalize_total_witness :
  well_formed (JDict title_only_result) = true
  ∧ ∃ out links,
      normalize_audd_result (JDict title_only_result) = inr (JDict out)
      ∧ out !! "found" = Some (JBool true)
      ∧ out !! "links" = Some (JDict links)
      ∧ (∀ k, k ∈ ["title"; "artist"; "album"; "release_date"; "timecode"] →
           title_only_result !! k = None → out !! k = Some JNull)
      ∧ (title_only_result !! "apple_music" = None →
           links !! "apple_music" = Some JNull)
      ∧ (title_only_result !! "spotify" = None →
           links !! "spotify" = Some JNull)
      ∧ (title_only_result !! "deezer" = None →
           links !! "deezer" = Some JNull)
      ∧ (title_only_result !! "song_link" = None →
           links !! "audd" = Some JNull).
Proof.
  split; [reflexivity|].
  apply (normalize_total title_only_result). reflexivity.
Defined.

(** C6. The normalizer reads the links along the fixed chains
    [apple_music.url], [spotify.external_urls.spotify], [deezer.link] and
    the top-level [song_link], each null as soon as an intermediate object
    is absent: on every well-formed result it returns [spec_Normalize].
    In particular the result with all four links gives the links A, S, D
    and L, and the result with only a title gives null for every other
    scalar and every link. *)
Theorem normalize_links :
  (∀ result, well_formed result = true →
     normalize_audd_result result = inr (spec_Normalize result))
  ∧ normalize_audd_result (JDict full_links_result) =
      inr (JDict (dict [("found", JBool true);
                        ("title", JNull);
                        ("artist", JNull);
                        ("album", JNull);
                        ("release_date", JNull);
                        ("timecode", JNull);
                        ("links",
                         JDict (dict [("apple_music", JString "A");
                                      ("spotify", JString "S");
                                      ("deezer", JString "D");
                                      ("audd", JString "L")]))]))
  ∧ normalize_audd_result (JDict title_only_result) =
      inr (JDict (dict [("found", JBool true);
                        ("title", JString "T");
                        ("artist", JNull);
                        ("album", JNull);
                        ("release_date", JNull);
                        ("timecode", JNull);
                        ("links",
                         JDict (dict [("apple_music", JNull);
                                      ("spotify", JNull);
                                      ("deezer", JNull);
                                      ("audd", JNull)]))])).
Proof.
  split; [exact normalize_well_formed|].
  split; vm_compute; reflexivity.
Qed.

Lemma normalize_links_witness :
  well_formed (JDict full_links_result) = true
  ∧ normalize_audd_result (JDict full_links_result) =
      inr (spec_Normalize (JDict full_links_result)).
Proof.
  split; [reflexivity|].
  apply (proj1 normalize_links (JDict full_links_result)). reflexivity.
Defined.

(** C10. On every well-formed provider result the output has exactly the
    seven keys found, title, artist, album, release_date, timecode and
    links, and links has exactly the four keys apple_music, spotify, deezer
    and audd.  Nothing else of the provider result reaches the output: two
    results that agree along the chains the normalizer reads give the same
    output. *)
Theorem normalize_keys (d : gmap string JSON) :
  well_formed (JDict d) = true →
  ∃ out links,
    normalize_audd_result (JDict d) = inr (JDict out)
    ∧ dom out = top_keys
    ∧ out !! "links" = Some (JDict links)
    ∧ dom links = link_keys
    ∧ ∀ d' : gmap string JSON,
        well_formed (JDict d') = true →
        (∀ p, p ∈ consumed_paths → chain (JDict d') p = chain (JDict d) p) →
        normalize_audd_result (JDict d') = inr (JDict out).
Proof.
  intros Hw. rewrite (normalize_well_formed _ Hw).
  destruct (spec_Normalize_keys (JDict d)) as (out & Hout & _ & Hdom & Hl & Hld).
  exists out, (spec_links (JDict d)). rewrite Hout.
  repeat (split; [done|]).
  intros d' Hw' Hagree. rewrite (normalize_well_formed _ Hw'), <- Hout.
  unfold spec_Normalize, spec_links.
  rewrite !Hagree; [done|by apply (bool_decide_unpack _)..].
Qed.

Lemma normalize_keys_witness :
  well_formed (JDict full_links_result) = true
  ∧ ∃ out links,
      normalize_audd_result (JDict full_links_result) = inr (JDict out)
      ∧ dom out = top_keys
      ∧ out !! "links" = Some (JDict links)
      ∧ dom links = link_keys
      ∧ ∀ d' : gmap string JSON,
          well_formed (JDict d') = true →
          (∀ p, p ∈ consumed_paths →
             chain (JDict d') p = chain (JDict full_links_result) p) →
          normalize_audd_result (JDict d') = inr (JDict out).
Proof.
  split; [reflexivity|].
  apply (normalize_keys full_links_result). reflexivity.
Defined.

(** ** Outcomes of [interpret] and [attempt] *)

Lemma truthy_nonempty (d : gmap string JSON) (k : string) (v : JSON) :
  d !! k = Some v → truthy (JDict d) = true.
Proof.
  intros H. destruct (truthy (JDict d)) eqn:Ht; [done|].
  apply truthy_dict in Ht as ->. by rewrite lookup_empty in H.
Qed.

Lemma ne_str_field (d : gmap string JSON) (k s : string) :
  ne_str (field (JDict d) k) s = true ↔ d !! k ≠ Some (JString s).
Proof.
  simpl. destruct (d !! k) as [v|]; simpl; [|done].
  destruct v; simpl; try done.
  rewrite negb_true_iff, bool_decide_eq_false. naive_solver.
Qed.

Lemma empty_or_absent_falsy (d : gmap string JSON) :
  d !! "result" = None ∨ d !! "result" = Some (JDict ∅) →
  truthy (field (JDict d) "result") = false.
Proof. simpl. by intros [-> | ->]. Qed.

Lemma interpret_no_match (d : gmap string JSON) :
  d !! "status" = Some (JString "success") →
  truthy (field (JDict d) "result") = false →
  interpret (JDict d) = inr (JDict (dict [("found", JBool false)])).
Proof.
  intros Hs Hr. unfold interpret.
  rewrite (truthy_nonempty _ _ _ Hs), !get_dict. cbn [negb mbind Res_bind].
  rewrite Hr. simpl field. rewrite Hs. done.
Qed.

Lemma interpret_non_success (d : gmap string JSON) :
  d !! "status" ≠ Some (JString "success") →
  interpret (JDict d) = inl recognition_error.
Proof.
  intros Hs. unfold interpret.
  destruct (negb (truthy (JDict d))); [done|].
  rewrite !get_dict. cbn [mbind Res_bind].
  apply ne_str_field in Hs. by rewrite Hs.
Qed.

Lemma interpret_returns (data body : JSON) :
  interpret data = inr body →
  body = JDict (dict [("found", JBool false)])
  ∨ ∃ result, normalize_audd_result result = inr body.
Proof.
  unfold interpret.
  destruct (negb (truthy data)); [done|].
  destruct (get data "status") as [e|status]; [done|]. cbn [mbind Res_bind].
  destruct (ne_str status "success"); [done|].
  destruct (get data "result") as [e|result]; [done|]. cbn [mbind Res_bind].
  destruct (negb (truthy result)).
  - intros [= <-]. by left.
  - intros H. right. by exists result.
Qed.

Lemma attempt_returns (o : Exception + JSON) (body : JSON) :
  attempt o = inr body → ∃ data, interpret data = inr body.
Proof. destruct o as [e|data]; [done|]. intros H. by exists data. Qed.

Lemma identify_by_url_returns tok provider payload log body :
  snd (identify_by_url tok provider payload log) = inr body →
  ∃ data, interpret data = inr body.
Proof.
  rewrite identify_by_url_unfold.
  destruct (negb (opt_truthy tok)); [done|].
  destruct (negb (valid_url _)); [done|].
  apply attempt_returns.
Qed.

Lemma identify_by_file_returns tok provider file log body :
  snd (identify_by_file tok provider file log) = inr body →
  ∃ data, interpret data = inr body.
Proof.
  rewrite identify_by_file_unfold.
  destruct (negb (opt_truthy tok)); [done|].
  destruct (read file); apply attempt_returns.
Qed.

(** A decoded body that is true and is not an object is not handled: the
    call of [get] on it raises outside the [try] block. *)
Lemma interpret_non_object (data : JSON) :
  truthy data = true → is_dict data = false →
  ∃ msg, interpret data = inl (AttributeError msg).
Proof.
  intros Ht Hd. unfold interpret. rewrite Ht.
  destruct (get_not_dict data "status" Hd) as [msg ->]. by exists msg.
Qed.

(** The only exceptions [interpret] raises are the fixed 502 and the
    [AttributeError] of a [get] on something that is not an object. *)
Lemma interpret_raises (data : JSON) (e : exn) :
  interpret data = inl e →
  e = recognition_error ∨ ∃ msg, e = AttributeError msg.
Proof.
  unfold interpret.
  destruct (negb (truthy data)); [intros [= <-]; by left|].
  destruct (is_dict data) eqn:Hd; cycle 1.
  { destruct (get_not_dict data "status" Hd) as [msg ->].
    intros [= <-]. right. by exists msg. }
  destruct data as [| | | | | |d]; try done. rewrite !get_dict.
  cbn [mbind Res_bind].
  destruct (ne_str _ _); [intros [= <-]; by left|].
  destruct (negb (truthy _)); [done|].
  intros H. right.
  destruct (well_formed (field (JDict d) "result")) eqn:Hw.
  - by rewrite (normalize_well_formed _ Hw) in H.
  - destruct (normalize_ill_formed _ Hw) as [msg Hm]. exists msg. congruence.
Qed.

Lemma attempt_not_422 (o : Exception + JSON) (detail : string) :
  attempt o ≠ inl (HTTPException 422 detail).
Proof.
  destruct o as [e|data]; [done|]. intros H.
  by destruct (interpret_raises _ _ H) as [?|[msg ?]].
Qed.

(** ** [str.strip()] on samples *)

Example strip_ascii : strip "  https://example.com/a.mp3 " = "https://example.com/a.mp3".
Proof. reflexivity. Qed.

(** A no-break space (U+00A0) in front and an ideographic space (U+3000)
    and a line feed behind are stripped; the space inside is kept. *)
Example strip_unicode :
  strip (String "194" (String "160" "http://a b")
         +:+ String "227" (String "128" (String "128" (String "010" ""))))
  = "http://a b".
Proof. reflexivity. Qed.

(** An inverted exclamation mark (U+00A1) is not whitespace. *)
Example strip_keeps_other :
  strip (String "194" (String "161" " x")) = String "194" (String "161" " x").
Proof. reflexivity. Qed.

(** ** The gateway *)

(** C1, as the code has it.  Every body returned by [identify_by_url] or
    [identify_by_file] is either exactly [{found: false}], with no other
    key, the links included, or a result with [found] true that has the
    seven top-level keys and the four link keys. *)
Theorem response_shape tok provider payload file log body :
  snd (identify_by_url tok provider payload log) = inr body
  ∨ snd (identify_by_file tok provider file log) = inr body →
  body = JDict (dict [("found", JBool false)])
  ∨ ∃ out links,
      body = JDict out
      ∧ out !! "found" = Some (JBool true)
      ∧ dom out = top_keys
      ∧ out !! "links" = Some (JDict links)
      ∧ dom links = link_keys.
Proof.
  intros H.
  assert (∃ data, interpret data = inr body) as [data Hdata].
  { destruct H as [H|H];
      eauto using identify_by_url_returns, identify_by_file_returns. }
  destruct (interpret_returns _ _ Hdata) as [->|[result Hn]]; [by left|].
  right. apply normalize_returns in Hn as [_ ->].
  destruct (spec_Normalize_keys result) as (out & -> & ?).
  by exists out, (spec_links result).
Qed.

Lemma response_shape_witness :
  (snd (identify_by_url sample_token provider_found sample_payload [])
     = inr (spec_Normalize (JDict title_only_result))
   ∨ snd (identify_by_file sample_token provider_found sample_clip [])
       = inr (spec_Normalize (JDict title_only_result)))
  ∧ (spec_Normalize (JDict title_only_result)
       = JDict (dict [("found", JBool false)])
     ∨ ∃ out links,
         spec_Normalize (JDict title_only_result) = JDict out
         ∧ out !! "found" = Some (JBool true)
         ∧ dom out = top_keys
         ∧ out !! "links" = Some (JDict links)
         ∧ dom links = link_keys).
Proof.
  assert (snd (identify_by_url sample_token provider_found sample_payload [])
            = inr (spec_Normalize (JDict title_only_result))
          ∨ snd (identify_by_file sample_token provider_found sample_clip [])
              = inr (spec_Normalize (JDict title_only_result))) as H.
  { left. vm_compute. reflexivity. }
  split; [exact H|].
  exact (response_shape sample_token provider_found sample_payload
           sample_clip [] _ H).
Defined.

(** C1, as stated, fails: on a provider success with an empty result the
    body is [{found: false}]; it has no [links] key, and its key set is
    not the key set of a found result. *)
Lemma not_found_shape_counterexample :
  ∃ out found_out,
    snd (identify_by_url sample_token provider_no_match sample_payload [])
      = inr (JDict out)
    ∧ snd (identify_by_url sample_token provider_found sample_payload [])
        = inr (JDict found_out)
    ∧ out !! "found" = Some (JBool false)
    ∧ out !! "links" = None
    ∧ dom out ≠ dom found_out.
Proof.
  eexists _, _.
  split; [vm_compute; reflexivity|].
  split; [vm_compute; reflexivity|].
  split; [reflexivity|]. split; [reflexivity|].
  vm_compute. discriminate.
Qed.




(** C3, as the code has it.  For every url that after trimming starts
    with neither "http://" nor "https://", [identify_by_url] fails
    without an outbound call: with the validation error 422 when the
    credential is set, and with the configuration error 400, raised
    first, when it is not. *)
Theorem malformed_url tok provider payload log :
  startswith (strip (url payload)) "http://" = false →
  startswith (strip (url payload)) "https://" = false →
  fst (identify_by_url tok provider payload log) = log
  ∧ (opt_truthy tok = true →
     snd (identify_by_url tok provider payload log) =
       inl (HTTPException 422
              "Please provide a valid URL starting with http(s)://"))
  ∧ (opt_truthy tok = false →
     snd (identify_by_url tok provider payload log) =
       inl (HTTPException 400
              "AUDD_API_TOKEN env var is not set on the server")).
Proof.
  intros H1 H2. rewrite identify_by_url_unfold. unfold valid_url.
  rewrite H1, H2. by destruct (opt_truthy tok).
Qed.

Lemma malformed_url_witness :
  startswith (strip (url ftp_payload)) "http://" = false
  ∧ startswith (strip (url ftp_payload)) "https://" = false
  ∧ fst (identify_by_url sample_token provider_found ftp_payload []) = []
  ∧ snd (identify_by_url sample_token provider_found ftp_payload []) =
      inl (HTTPException 422
             "Please provide a valid URL starting with http(s)://").
Proof.
  pose proof (malformed_url sample_token provider_found ftp_payload []
                eq_refl eq_refl) as (Hlog & Hset & _).
  split; [reflexivity|]. split; [reflexivity|].
  split; [exact Hlog | exact (Hset eq_refl)].
Defined.

(** C3, as stated, fails: with the credential unset a malformed url gets
    the configuration error 400, not the validation error 422. *)
Lemma malformed_url_counterexample :
  startswith (strip (url ftp_payload)) "http://" = false
  ∧ startswith (strip (url ftp_payload)) "https://" = false
  ∧ snd (identify_by_url None provider_found ftp_payload []) =
      inl (HTTPException 400
             "AUDD_API_TOKEN env var is not set on the server")
  ∧ ¬ ∃ detail,
        snd (identify_by_url None provider_found ftp_payload []) =
          inl (HTTPException 422 detail).
Proof.
  split; [reflexivity|]. split; [reflexivity|]. split; [reflexivity|].
  intros [detail H]. vm_compute in H. discriminate.
Qed.

(** C4.  When the credential is unset (the variable is absent, or is the
    empty string), both handlers fail with the configuration error 400
    for every input, and the log of outbound calls is unchanged. *)
Theorem missing_credential tok provider payload file log :
  opt_truthy tok = false →
  identify_by_url tok provider payload log =
    (log, inl (HTTPException 400
                 "AUDD_API_TOKEN env var is not set on the server"))
  ∧ identify_by_file tok provider file log =
      (log, inl (HTTPException 400
                   "AUDD_API_TOKEN env var is not set on the server")).
Proof.
  intros H. rewrite identify_by_url_unfold, identify_by_file_unfold, H.
  done.
Qed.

Lemma missing_credential_witness :
  opt_truthy None = false
  ∧ identify_by_url None provider_found sample_payload [] =
      ([], inl (HTTPException 400
                  "AUDD_API_TOKEN env var is not set on the server"))
  ∧ identify_by_file None provider_found sample_clip [] =
      ([], inl (HTTPException 400
                  "AUDD_API_TOKEN env var is not set on the server")).
Proof.
  split; [reflexivity|].
  exact (missing_credential None provider_found sample_payload sample_clip []
           eq_refl).
Defined.

(** C7.  When the provider answers with status "success" and a result
    that is empty or absent (or any other false value, such as null),
    both handlers return the body [{found: false}], not an error. *)
Theorem no_match tok provider payload file content log r d :
  opt_truthy tok = true →
  json r = inr (JDict d) →
  d !! "status" = Some (JString "success") →
  truthy (field (JDict d) "result") = false →
  (valid_url (url payload) = true →
   provider (url_request tok (strip (url payload))) = post_returns r →
   identify_by_url tok provider payload log =
     (log ++ [url_request tok (strip (url payload))],
      inr (JDict (dict [("found", JBool false)]))))
  ∧ (read file = inr content →
     provider (file_request tok file content) = post_returns r →
     identify_by_file tok provider file log =
       (log ++ [file_request tok file content],
        inr (JDict (dict [("found", JBool false)])))).
Proof.
  intros Htok Hjson Hs Hr.
  pose proof (interpret_no_match d Hs Hr) as Hi. split.
  - intros Hurl Hp. rewrite identify_by_url_unfold, Htok, Hurl. simpl.
    unfold fetch, attempt. by rewrite Hp, Hjson, Hi.
  - intros Hread Hp. rewrite identify_by_file_unfold, Htok, Hread. simpl.
    unfold fetch, attempt. by rewrite Hp, Hjson, Hi.
Qed.

Lemma no_match_witness :
  identify_by_url sample_token provider_no_match sample_payload [] =
    ([url_request sample_token "https://example.com/a.mp3"],
     inr (JDict (dict [("found", JBool false)])))
  ∧ identify_by_file sample_token provider_no_match sample_clip [] =
      ([file_request sample_token sample_clip sample_content],
       inr (JDict (dict [("found", JBool false)]))).
Proof.
  pose proof (no_match sample_token provider_no_match sample_payload
                sample_clip sample_content []
                {| json := inr (success_with (JDict ∅)) |}
                (dict [("status", JString "success"); ("result", JDict ∅)])
                eq_refl eq_refl eq_refl eq_refl) as [Hu Hf].
  split; [exact (Hu eq_refl eq_refl) | exact (Hf eq_refl eq_refl)].
Defined.

(** The status check on objects.  When the provider answers with a JSON
    object whose status is not
    the string "success" (another value, or no status at all), both
    handlers fail with status 502 and the detail "Recognition service
    error", whatever else the object holds, a result included. *)
Theorem non_success_status tok provider payload file content log r d :
  opt_truthy tok = true →
  json r = inr (JDict d) →
  d !! "status" ≠ Some (JString "success") →
  (valid_url (url payload) = true →
   provider (url_request tok (strip (url payload))) = post_returns r →
   identify_by_url tok provider payload log =
     (log ++ [url_request tok (strip (url payload))],
      inl (HTTPException 502 "Recognition service error")))
  ∧ (read file = inr content →
     provider (file_request tok file content) = post_returns r →
     identify_by_file tok provider file log =
       (log ++ [file_request tok file content],
        inl (HTTPException 502 "Recognition service error"))).
Proof.
  intros Htok Hjson Hs.
  pose proof (interpret_non_success d Hs) as Hi. split.
  - intros Hurl Hp. rewrite identify_by_url_unfold, Htok, Hurl. simpl.
    unfold fetch, attempt. by rewrite Hp, Hjson, Hi.
  - intros Hread Hp. rewrite identify_by_file_unfold, Htok, Hread. simpl.
    unfold fetch, attempt. by rewrite Hp, Hjson, Hi.
Qed.

Lemma error_body_status : error_body !! "status" ≠ Some (JString "success").
Proof. vm_compute. discriminate. Qed.

Lemma non_success_status_witness :
  error_body !! "status" ≠ Some (JString "success")
  ∧ error_body !! "result" = Some (JDict title_only_result)
  ∧ identify_by_url sample_token provider_error sample_payload [] =
      ([url_request sample_token "https://example.com/a.mp3"],
       inl (HTTPException 502 "Recognition service error"))
  ∧ identify_by_file sample_token provider_error sample_clip [] =
      ([file_request sample_token sample_clip sample_content],
       inl (HTTPException 502 "Recognition service error")).
Proof.
  split; [exact error_body_status|]. split; [reflexivity|].
  pose proof (non_success_status sample_token provider_error sample_payload
                sample_clip sample_content []
                {| json := inr (JDict error_body) |} error_body
                eq_refl eq_refl error_body_status) as [Hu Hf].
  split; [exact (Hu eq_refl eq_refl) | exact (Hf eq_refl eq_refl)].
Defined.

(** C8, at the failing input.  The body [[{"status": "error"}]] is
    parseable and its status is not "success", but it is a list, true in
    Python's sense: [not data] is false and [data.get] raises
    [AttributeError] outside the [try] block.  Both handlers end with
    that exception after the outbound call, not with the 502
    "Recognition service error" that objects and false bodies get. *)
Theorem non_success_status_non_object :
  truthy error_list = true
  ∧ identify_by_url sample_token provider_error_list sample_payload [] =
      ([url_request sample_token "https://example.com/a.mp3"],
       inl (AttributeError "'list' object has no attribute 'get'"))
  ∧ identify_by_file sample_token provider_error_list sample_clip [] =
      ([file_request sample_token sample_clip sample_content],
       inl (AttributeError "'list' object has no attribute 'get'"))
  ∧ snd (identify_by_url sample_token provider_error_list sample_payload [])
      ≠ inl (HTTPException 502 "Recognition service error")
  ∧ snd (identify_by_file sample_token provider_error_list sample_clip [])
      ≠ inl (HTTPException 502 "Recognition service error").
Proof.
  split; [reflexivity|].
  split; [vm_compute; reflexivity|].
  split; [vm_compute; reflexivity|].
  split; vm_compute; discriminate.
Qed.

(** C9.  For every uploaded clip that can be read, with the credential
    set, [identify_by_file] issues exactly one outbound request, whose
    file part carries the content under the clip's filename, or
    "clip.mp3" when the filename is absent or empty, and the clip's
    content type, or "audio/mpeg" when it is absent or empty.  No url is
    validated: the handler never fails with the validation error 422. *)
Theorem file_fallbacks tok provider file content log :
  opt_truthy tok = true →
  read file = inr content →
  ∃ name ctype,
    fst (identify_by_file tok provider file log) =
      log ++ [ {| endpoint := "https://api.audd.io/";
                  data := [("api_token", tok);
                           ("return",
                            Some "timecode,deezer,spotify,apple_music")];
                  files := [("file", (name, content, ctype))];
                  timeout := 60 |} ]
    ∧ (filename file = None ∨ filename file = Some "" → name = "clip.mp3")
    ∧ (∀ s, filename file = Some s → s ≠ "" → name = s)
    ∧ (content_type file = None ∨ content_type file = Some "" →
       ctype = "audio/mpeg")
    ∧ (∀ s, content_type file = Some s → s ≠ "" → ctype = s)
    ∧ ∀ detail,
        snd (identify_by_file tok provider file log)
          ≠ inl (HTTPException 422 detail).
Proof.
  intros Htok Hread.
  exists (opt_or (filename file) "clip.mp3"),
         (opt_or (content_type file) "audio/mpeg").
  rewrite identify_by_file_unfold, Htok, Hread. simpl negb. cbv iota.
  split; [reflexivity|].
  split; [intros H; by apply opt_or_fallback, opt_truthy_false|].
  split; [intros s -> Hs; by destruct s|].
  split; [intros H; by apply opt_or_fallback, opt_truthy_false|].
  split; [intros s -> Hs; by destruct s|].
  intros detail. apply attempt_not_422.
Qed.

Lemma file_fallbacks_witness :
  ∃ name ctype,
    fst (identify_by_file sample_token provider_found sample_clip []) =
      [ {| endpoint := "https://api.audd.io/";
           data := [("api_token", sample_token);
                    ("return", Some "timecode,deezer,spotify,apple_music")];
           files := [("file", (name, sample_content, ctype))];
           timeout := 60 |} ]
    ∧ name = "clip.mp3"
    ∧ ctype = "audio/mpeg".
Proof.
  destruct (file_fallbacks sample_token provider_found sample_clip
              sample_content [] eq_refl eq_refl)
    as (name & ctype & Hlog & Hname & _ & Hctype & _).
  exists name, ctype.
  split; [exact Hlog|].
  split; [apply Hname; by right | apply Hctype; by left].
Defined.

(** * Further properties of the handlers *)

(** ** Failures before and during the outbound call *)

(** X1.  When [requests.post] itself raises (no connection, a timeout), both
    handlers fail with status 502 and the detail "Failed contacting
    recognition service: " followed by the text of the exception; the call
    that failed is the only one attempted. *)
Theorem transport_failure tok provider payload file content log e :
  opt_truthy tok = true →
  (valid_url (url payload) = true →
   provider (url_request tok (strip (url payload))) = post_raises e →
   identify_by_url tok provider payload log =
     (log ++ [url_request tok (strip (url payload))],
      inl (HTTPException 502
             ("Failed contacting recognition service: " +:+ e))))
  ∧ (read file = inr content →
     provider (file_request tok file content) = post_raises e →
     identify_by_file tok provider file log =
       (log ++ [file_request tok file content],
        inl (HTTPException 502
               ("Failed contacting recognition service: " +:+ e)))).
Proof.
  intros Htok. split.
  - intros Hurl Hp. rewrite identify_by_url_unfold, Htok, Hurl. simpl.
    unfold fetch. by rewrite Hp.
  - intros Hread Hp. rewrite identify_by_file_unfold, Htok, Hread. simpl.
    unfold fetch. by rewrite Hp.
Qed.

Lemma transport_failure_witness :
  identify_by_url sample_token provider_down sample_payload [] =
    ([url_request sample_token "https://example.com/a.mp3"],
     inl (HTTPException 502
            "Failed contacting recognition service: Connection refused"))
  ∧ identify_by_file sample_token provider_down sample_clip [] =
      ([file_request sample_token sample_clip sample_content],
       inl (HTTPException 502
              "Failed contacting recognition service: Connection refused")).
Proof.
  pose proof (transport_failure sample_token provider_down sample_payload
                sample_clip sample_content [] "Connection refused" eq_refl)
    as [Hu Hf].
  split; [exact (Hu eq_refl eq_refl) | exact (Hf eq_refl eq_refl)].
Defined.

(** X2.  When reading the upload raises, [identify_by_file] reports it with the
    same 502 and "Failed contacting recognition service: " detail although
    the provider was never contacted: the log of outbound calls is
    unchanged. *)
Theorem upload_read_failure tok provider file log e :
  opt_truthy tok = true →
  read file = inl e →
  identify_by_file tok provider file log =
    (log,
     inl (HTTPException 502
            ("Failed contacting recognition service: " +:+ e))).
Proof.
  intros Htok Hread. by rewrite identify_by_file_unfold, Htok, Hread.
Qed.

Lemma upload_read_failure_witness :
  identify_by_file sample_token provider_found unreadable_clip [] =
    ([],
     inl (HTTPException 502
            "Failed contacting recognition service: closed file")).
Proof.
  exact (upload_read_failure sample_token provider_found unreadable_clip []
           "closed file" eq_refl eq_refl).
Defined.

(** ** What is sent to the provider *)

(** X3.  [identify_by_url] never rewrites the earlier log and issues at most one
    request.  A request it issues goes to the fixed endpoint with timeout
    30 and no file part, carries a non-empty credential, and its url field
    is the trimmed input, which starts with "http://" or "https://". *)
Theorem url_outbound_request tok provider payload log :
  fst (identify_by_url tok provider payload log) = log
  ∨ ∃ t u,
      tok = Some t ∧ t ≠ ""
      ∧ u = strip (url payload)
      ∧ (startswith u "http://" = true ∨ startswith u "https://" = true)
      ∧ fst (identify_by_url tok provider payload log) =
          log ++ [ {| endpoint := "https://api.audd.io/";
                      data := [("api_token", Some t);
                               ("url", Some u);
                               ("return",
                                Some "timecode,deezer,spotify,apple_music")];
                      files := [];
                      timeout := 30 |} ].
Proof.
  rewrite identify_by_url_unfold.
  destruct tok as [[|a t]|]; [by left| |by left].
  change (negb (opt_truthy (Some (String a t)))) with false. cbv iota.
  destruct (valid_url (url payload)) eqn:Hv; [|by left].
  right. exists (String a t), (strip (url payload)).
  split; [done|]. split; [done|]. split; [done|].
  split; [|done].
  unfold valid_url in Hv. by apply orb_true_iff in Hv.
Qed.

(** X4.  [identify_by_file] never rewrites the earlier log and issues at most
    one request.  A request it issues goes to the fixed endpoint with
    timeout 60, carries a non-empty credential and no url, and its single
    file part holds the content that was read under a non-empty filename
    and a non-empty content type. *)
Theorem file_outbound_request tok provider file log :
  fst (identify_by_file tok provider file log) = log
  ∨ ∃ t content fname ctype,
      tok = Some t ∧ t ≠ ""
      ∧ read file = inr content
      ∧ fname ≠ "" ∧ ctype ≠ ""
      ∧ fst (identify_by_file tok provider file log) =
          log ++ [ {| endpoint := "https://api.audd.io/";
                      data := [("api_token", Some t);
                               ("return",
                                Some "timecode,deezer,spotify,apple_music")];
                      files := [("file", (fname, content, ctype))];
                      timeout := 60 |} ].
Proof.
  rewrite identify_by_file_unfold.
  destruct tok as [[|a t]|]; [by left| |by left].
  change (negb (opt_truthy (Some (String a t)))) with false. cbv iota.
  destruct (read file) as [e|content] eqn:Hread; [by left|].
  right.
  exists (String a t), content, (opt_or (filename file) "clip.mp3"),
         (opt_or (content_type file) "audio/mpeg").
  split; [done|]. split; [done|]. split; [done|].
  split; [by destruct (filename file) as [[|??]|]|].
  split; [by destruct (content_type file) as [[|??]|]|].
  done.
Qed.

(** ** What the handlers do with a decoded body *)

Lemma handlers_answered tok provider payload file content log r data :
  opt_truthy tok = true →
  json r = inr data →
  (valid_url (url payload) = true →
   provider (url_request tok (strip (url payload))) = post_returns r →
   identify_by_url tok provider payload log =
     (log ++ [url_request tok (strip (url payload))], interpret data))
  ∧ (read file = inr content →
     provider (file_request tok file content) = post_returns r →
     identify_by_file tok provider file log =
       (log ++ [file_request tok file content], interpret data)).
Proof.
  intros Htok Hjson. split.
  - intros Hurl Hp. rewrite identify_by_url_unfold, Htok, Hurl. simpl.
    unfold fetch, attempt. by rewrite Hp, Hjson.
  - intros Hread Hp. rewrite identify_by_file_unfold, Htok, Hread. simpl.
    unfold fetch, attempt. by rewrite Hp, Hjson.
Qed.

(** X5.  A decoded body that is false in Python's sense (null, false, zero, an
    empty string, list or object) gets the fixed 502 "Recognition service
    error" from both handlers, like a body with a bad status. *)
Theorem falsy_body tok provider payload file content log r data :
  opt_truthy tok = true →
  json r = inr data →
  truthy data = false →
  (valid_url (url payload) = true →
   provider (url_request tok (strip (url payload))) = post_returns r →
   identify_by_url tok provider payload log =
     (log ++ [url_request tok (strip (url payload))],
      inl (HTTPException 502 "Recognition service error")))
  ∧ (read file = inr content →
     provider (file_request tok file content) = post_returns r →
     identify_by_file tok provider file log =
       (log ++ [file_request tok file content],
        inl (HTTPException 502 "Recognition service error"))).
Proof.
  intros Htok Hjson Hf.
  pose proof (handlers_answered tok provider payload file content log r data
                Htok Hjson) as H.
  unfold interpret in H. by rewrite Hf in H.
Qed.

Lemma falsy_body_witness :
  identify_by_url sample_token provider_null sample_payload [] =
    ([url_request sample_token "https://example.com/a.mp3"],
     inl (HTTPException 502 "Recognition service error"))
  ∧ identify_by_file sample_token provider_null sample_clip [] =
      ([file_request sample_token sample_clip sample_content],
       inl (HTTPException 502 "Recognition service error")).
Proof.
  pose proof (falsy_body sample_token provider_null sample_payload
                sample_clip sample_content [] {| json := inr JNull |} JNull
                eq_refl eq_refl eq_refl) as [Hu Hf].
  split; [exact (Hu eq_refl eq_refl) | exact (Hf eq_refl eq_refl)].
Defined.

(** X6.  A decoded body that is true and is not an object (a non-empty list or
    string, a non-zero number, true) is not turned into a gateway error:
    [data.get] raises [AttributeError] outside the [try] block, in both
    handlers, after the outbound call. *)
Theorem non_object_body tok provider payload file content log r data :
  opt_truthy tok = true →
  json r = inr data →
  truthy data = true →
  is_dict data = false →
  (valid_url (url payload) = true →
   provider (url_request tok (strip (url payload))) = post_returns r →
   identify_by_url tok provider payload log =
     (log ++ [url_request tok (strip (url payload))],
      inl (AttributeError
             ("'" +:+ type_name data +:+ "' object has no attribute 'get'"))))
  ∧ (read file = inr content →
     provider (file_request tok file content) = post_returns r →
     identify_by_file tok provider file log =
       (log ++ [file_request tok file content],
        inl (AttributeError
               ("'" +:+ type_name data
                +:+ "' object has no attribute 'get'")))).
Proof.
  intros Htok Hjson Ht Hd.
  pose proof (handlers_answered tok provider payload file content log r data
                Htok Hjson) as H.
  unfold interpret in H. rewrite Ht in H. by destruct data.
Qed.

Lemma non_object_body_witness :
  identify_by_url sample_token provider_list sample_payload [] =
    ([url_request sample_token "https://example.com/a.mp3"],
     inl (AttributeError "'list' object has no attribute 'get'"))
  ∧ identify_by_file sample_token provider_list sample_clip [] =
      ([file_request sample_token sample_clip sample_content],
       inl (AttributeError "'list' object has no attribute 'get'")).
Proof.
  pose proof (non_object_body sample_token provider_list sample_payload
                sample_clip sample_content []
                {| json := inr (JList [JInt 1]) |} (JList [JInt 1])
                eq_refl eq_refl eq_refl eq_refl) as [Hu Hf].
  split; [exact (Hu eq_refl eq_refl) | exact (Hf eq_refl eq_refl)].
Defined.

Lemma interpret_success (d : gmap string JSON) (result : JSON) :
  d !! "status" = Some (JString "success") →
  d !! "result" = Some result →
  truthy result = true →
  interpret (JDict d) = normalize_audd_result result.
Proof.
  intros Hs Hr Ht. unfold interpret.
  rewrite (truthy_nonempty _ _ _ Hs), !get_dict. cbn [negb mbind Res_bind].
  simpl field. rewrite Hs, Hr. simpl. by rewrite Ht.
Qed.

(** X7.  On a provider success with a well-formed, non-empty result both
    handlers return the normalized result, the one the specification's
    chains describe. *)
Theorem match_found tok provider payload file content log r d result :
  opt_truthy tok = true →
  json r = inr (JDict d) →
  d !! "status" = Some (JString "success") →
  d !! "result" = Some result →
  truthy result = true →
  well_formed result = true →
  (valid_url (url payload) = true →
   provider (url_request tok (strip (url payload))) = post_returns r →
   identify_by_url tok provider payload log =
     (log ++ [url_request tok (strip (url payload))],
      inr (spec_Normalize result)))
  ∧ (read file = inr content →
     provider (file_request tok file content) = post_returns r →
     identify_by_file tok provider file log =
       (log ++ [file_request tok file content],
        inr (spec_Normalize result))).
Proof.
  intros Htok Hjson Hs Hr Ht Hw.
  pose proof (handlers_answered tok provider payload file content log r _
                Htok Hjson) as H.
  by rewrite (interpret_success d result Hs Hr Ht),
    (normalize_well_formed _ Hw) in H.
Qed.

Lemma match_found_witness :
  identify_by_url sample_token provider_found sample_payload [] =
    ([url_request sample_token "https://example.com/a.mp3"],
     inr (spec_Normalize (JDict title_only_result)))
  ∧ identify_by_file sample_token provider_found sample_clip [] =
      ([file_request sample_token sample_clip sample_content],
       inr (spec_Normalize (JDict title_only_result))).
Proof.
  pose proof (match_found sample_token provider_found sample_payload
                sample_clip sample_content []
                {| json := inr (success_with (JDict title_only_result)) |}
                (dict [("status", JString "success");
                       ("result", JDict title_only_result)])
                (JDict title_only_result)
                eq_refl eq_refl eq_refl eq_refl eq_refl eq_refl) as [Hu Hf].
  split; [exact (Hu eq_refl eq_refl) | exact (Hf eq_refl eq_refl)].
Defined.

(** X8.  On a provider success whose result is true but not well formed (not an
    object, or with a service entry such as a non-empty string that cannot
    be followed), the normalizer's [AttributeError] escapes from both
    handlers: no gateway error is produced and no body is returned. *)
Theorem ill_formed_result tok provider payload file content log r d result :
  opt_truthy tok = true →
  json r = inr (JDict d) →
  d !! "status" = Some (JString "success") →
  d !! "result" = Some result →
  truthy result = true →
  well_formed result = false →
  ∃ msg,
    (valid_url (url payload) = true →
     provider (url_request tok (strip (url payload))) = post_returns r →
     identify_by_url tok provider payload log =
       (log ++ [url_request tok (strip (url payload))],
        inl (AttributeError msg)))
    ∧ (read file = inr content →
       provider (file_request tok file content) = post_returns r →
       identify_by_file tok provider file log =
         (log ++ [file_request tok file content],
          inl (AttributeError msg))).
Proof.
  intros Htok Hjson Hs Hr Ht Hw.
  destruct (normalize_ill_formed _ Hw) as [msg Hmsg]. exists msg.
  pose proof (handlers_answered tok provider payload file content log r _
                Htok Hjson) as H.
  by rewrite (interpret_success d result Hs Hr Ht), Hmsg in H.
Qed.

Lemma ill_formed_result_witness :
  ∃ msg,
    identify_by_url sample_token provider_bad_service sample_payload [] =
      ([url_request sample_token "https://example.com/a.mp3"],
       inl (AttributeError msg))
    ∧ identify_by_file sample_token provider_bad_service sample_clip [] =
        ([file_request sample_token sample_clip sample_content],
         inl (AttributeError msg)).
Proof.
  destruct (ill_formed_result sample_token provider_bad_service
              sample_payload sample_clip sample_content []
              {| json := inr (success_with bad_service_result) |}
              (dict [("status", JString "success");
                     ("result", bad_service_result)])
              bad_service_result
              eq_refl eq_refl eq_refl eq_refl eq_refl eq_refl)
    as [msg [Hu Hf]].
  exists msg.
  split; [exact (Hu eq_refl eq_refl) | exact (Hf eq_refl eq_refl)].
Defined.

(** ** Error statuses *)

Lemma attempt_http (o : Exception + JSON) (code : Z) (detail : string) :
  attempt o = inl (HTTPException code detail) → code = 502%Z.
Proof.
  destruct o as [e|data]; [by intros [= <- _]|]. simpl. intros H.
  destruct (interpret_raises _ _ H) as [Heq|[msg Heq]]; [|done].
  unfold recognition_error in Heq. by injection Heq as -> _.
Qed.

(** X9.  Whatever the inputs and the provider do, an [HTTPException] raised by
    [identify_by_url] has status 400, 422 or 502, and one raised by
    [identify_by_file] has status 400 or 502. *)
Theorem error_statuses tok provider payload file log code detail :
  (snd (identify_by_url tok provider payload log)
     = inl (HTTPException code detail) →
   code = 400%Z ∨ code = 422%Z ∨ code = 502%Z)
  ∧ (snd (identify_by_file tok provider file log)
       = inl (HTTPException code detail) →
     code = 400%Z ∨ code = 502%Z).
Proof.
  rewrite identify_by_url_unfold, identify_by_file_unfold.
  destruct (negb (opt_truthy tok)).
  { split; intros [= <- _]; auto. }
  split.
  - destruct (negb (valid_url _)); [intros [= <- _]; auto|].
    intros H. right. right. by apply attempt_http in H.
  - destruct (read file); cbn [snd]; intros H; right;
      by apply attempt_http in H.
Qed.

Lemma error_statuses_witness :
  snd (identify_by_url sample_token provider_found ftp_payload [])
    = inl (HTTPException 422
             "Please provide a valid URL starting with http(s)://")
  ∧ (422 = 400 ∨ 422 = 422 ∨ 422 = 502)%Z
  ∧ snd (identify_by_file None provider_found sample_clip [])
      = inl (HTTPException 400
               "AUDD_API_TOKEN env var is not set on the server")
  ∧ (400 = 400 ∨ 400 = 502)%Z.
Proof.
  split; [reflexivity|].
  split.
  - exact (proj1 (error_statuses sample_token provider_found ftp_payload
                    sample_clip [] 422%Z _) eq_refl).
  - split; [reflexivity|].
    exact (proj2 (error_statuses None provider_found sample_payload
                    sample_clip [] 400%Z _) eq_refl).
Defined.

(** ** The two paths agree *)

(** X10.  Behind their guards the two handlers treat the provider alike: when
    the credential is set, the url is valid, the upload can be read, and
    the provider gives the two requests the same outcome, both handlers
    end with the same response or the same exception. *)
Theorem handlers_agree tok provider payload file content log :
  opt_truthy tok = true →
  valid_url (url payload) = true →
  read file = inr content →
  fetch provider (url_request tok (strip (url payload)))
    = fetch provider (file_request tok file content) →
  snd (identify_by_url tok provider payload log)
    = snd (identify_by_file tok provider file log).
Proof.
  intros Htok Hurl Hread Hfetch.
  rewrite identify_by_url_unfold, identify_by_file_unfold, Htok, Hurl, Hread.
  simpl. by rewrite Hfetch.
Qed.

Lemma handlers_agree_witness :
  snd (identify_by_url sample_token provider_found sample_payload [])
    = snd (identify_by_file sample_token provider_found sample_clip []).
Proof.
  exact (handlers_agree sample_token provider_found sample_payload
           sample_clip sample_content [] eq_refl eq_refl eq_refl eq_refl).
Defined.

(** ** Whitespace around the url *)

Lemma isspace1_low (b : ascii) :
  isspace1 b = true → (N_of_ascii b <= 32)%N.
Proof.
  unfold isspace1, byte_in.
  rewrite orb_true_iff, !andb_true_iff, !N.leb_le. lia.
Qed.

Lemma isspace2_snd_low (a b : ascii) : isspace1 b = true → isspace2 a b = false.
Proof.
  intros H%isspace1_low. unfold isspace2, byte_in.
  apply andb_false_iff. right. apply orb_false_iff.
  rewrite !andb_false_iff, !N.leb_gt. lia.
Qed.

Lemma isspace3_trd_low (a b c : ascii) :
  isspace1 c = true → isspace3 a b c = false.
Proof.
  intros H%isspace1_low. unfold isspace3, byte_in.
  assert ((128 <=? N_of_ascii c)%N = false) as Hc1 by (apply N.leb_gt; lia).
  assert ((168 <=? N_of_ascii c)%N = false) as Hc2 by (apply N.leb_gt; lia).
  assert ((175 <=? N_of_ascii c)%N = false) as Hc3 by (apply N.leb_gt; lia).
  assert ((159 <=? N_of_ascii c)%N = false) as Hc4 by (apply N.leb_gt; lia).
  rewrite Hc1, Hc2, Hc3, Hc4. simpl. by rewrite !andb_false_r.
Qed.

Lemma lstrip_cons_space (a : ascii) (s : string) :
  isspace1 a = true → lstrip (String a s) = lstrip s.
Proof. intros H. unfold lstrip. simpl. by rewrite H. Qed.

(** Appending an ASCII whitespace character to a string: it is stripped
    from the front only if nothing but whitespace precedes it. *)
Lemma lstrip_snoc_space (b : ascii) (n : nat) (s : string) :
  isspace1 b = true →
  String.length s ≤ n →
  lstrip (s +:+ String b "") =
    match lstrip s with
    | EmptyString => EmptyString
    | t => t +:+ String b ""
    end.
Proof.
  intros Hb. revert s. induction n as [|n IH]; intros s Hn.
  { destruct s; [|simpl in Hn; lia]. unfold lstrip. simpl. by rewrite Hb. }
  destruct s as [|a0 s1]; [unfold lstrip; simpl; by rewrite Hb|].
  simpl in Hn.
  destruct (isspace1 a0) eqn:H0.
  { change (String a0 s1 +:+ String b "")
      with (String a0 (s1 +:+ String b "")).
    rewrite !lstrip_cons_space by done. apply IH. lia. }
  destruct s1 as [|a1 s2].
  { unfold lstrip. simpl. by rewrite H0, (isspace2_snd_low a0 b Hb). }
  simpl in Hn.
  destruct (isspace2 a0 a1) eqn:H1.
  { assert (∀ t, lstrip (String a0 (String a1 t)) = lstrip t) as Hstep.
    { intros t. unfold lstrip. simpl. by rewrite H0, H1. }
    change (String a0 (String a1 s2) +:+ String b "")
      with (String a0 (String a1 (s2 +:+ String b ""))).
    rewrite !Hstep. apply IH. lia. }
  destruct s2 as [|a2 s3].
  { unfold lstrip. simpl.
    by rewrite H0, H1, (isspace3_trd_low a0 a1 b Hb). }
  simpl in Hn.
  destruct (isspace3 a0 a1 a2) eqn:H2.
  { assert (∀ t, lstrip (String a0 (String a1 (String a2 t))) = lstrip t)
      as Hstep.
    { intros t. unfold lstrip. simpl. by rewrite H0, H1, H2. }
    change (String a0 (String a1 (String a2 s3)) +:+ String b "")
      with (String a0 (String a1 (String a2 (s3 +:+ String b "")))).
    rewrite !Hstep. apply IH. lia. }
  unfold lstrip. simpl. by rewrite H0, H1, H2.
Qed.

Lemma rev_app_append (s t acc : string) :
  String.rev_app (s +:+ t) acc = String.rev_app t (String.rev_app s acc).
Proof.
  revert acc. induction s as [|a s IH]; intros acc; [done|]. apply IH.
Qed.

Lemma rstrip_snoc_space (b : ascii) (s : string) :
  isspace1 b = true → rstrip (s +:+ String b "") = rstrip s.
Proof.
  intros Hb. unfold rstrip, String.rev. rewrite rev_app_append. simpl.
  by rewrite Hb.
Qed.

Lemma strip_cons_space (a : ascii) (s : string) :
  isspace1 a = true → strip (String a s) = strip s.
Proof. intros H. unfold strip. by rewrite lstrip_cons_space. Qed.

Lemma strip_snoc_space (b : ascii) (s : string) :
  isspace1 b = true → strip (s +:+ String b "") = strip s.
Proof.
  intros Hb. unfold strip.
  rewrite (lstrip_snoc_space b (String.length s) s Hb) by done.
  destruct (lstrip s) as [|a t] eqn:Hl; [done|].
  by apply rstrip_snoc_space.
Qed.

Lemma append_assoc (s t u : string) : (s +:+ t) +:+ u = s +:+ (t +:+ u).
Proof.
  induction s as [|a s IH]; [done|].
  change (String a ((s +:+ t) +:+ u) = String a (s +:+ (t +:+ u))).
  by rewrite IH.
Qed.

Lemma append_empty_r (s : string) : s +:+ "" = s.
Proof.
  induction s as [|a s IH]; [done|].
  change (String a (s +:+ "") = String a s). by rewrite IH.
Qed.

Lemma strip_padded (pre post u : string) :
  all_spaces pre = true → all_spaces post = true →
  strip (pre +:+ u +:+ post) = strip u.
Proof.
  intros Hpre Hpost.
  assert (strip (u +:+ post) = strip u) as Hright.
  { clear pre Hpre. revert u.
    induction post as [|b post IH]; intros u.
    - by rewrite append_empty_r.
    - simpl in Hpost. apply andb_true_iff in Hpost as [Hb Hpost].
      change (String b post) with (String b "" +:+ post).
      rewrite <- append_assoc, (IH Hpost). by apply strip_snoc_space. }
  induction pre as [|a pre IH]; [done|].
  simpl in Hpre. apply andb_true_iff in Hpre as [Ha Hpre].
  change (String a pre +:+ u +:+ post) with (String a (pre +:+ u +:+ post)).
  rewrite strip_cons_space by done. by apply IH.
Qed.

(** X11.  Whitespace around the url is ignored: padding the url with ASCII
    whitespace (space, tab, line feed and the other characters U+0009 to
    U+000D and U+001C to U+0020) on either side changes neither the
    request sent to the provider nor the outcome. *)
Theorem url_padding_ignored tok provider pre post u log :
  all_spaces pre = true →
  all_spaces post = true →
  identify_by_url tok provider {| url := pre +:+ u +:+ post |} log
    = identify_by_url tok provider {| url := u |} log.
Proof.
  intros Hpre Hpost. rewrite !identify_by_url_unfold. unfold valid_url.
  simpl url. by rewrite (strip_padded pre post u Hpre Hpost).
Qed.

Lemma url_padding_ignored_witness :
  identify_by_url sample_token provider_found
    {| url := "  " +:+ "https://example.com/a.mp3" +:+ " " |} []
  = identify_by_url sample_token provider_found
      {| url := "https://example.com/a.mp3" |} [].
Proof.
  exact (url_padding_ignored sample_token provider_found "  " " "
           "https://example.com/a.mp3" [] eq_refl eq_refl).
Defined.

(** * Further properties of the normalizer *)

(** X12.  The normalizer fails exactly on the results that are not well formed,
    and then always with an [AttributeError], never an [HTTPException]; on
    a well-formed result it returns the normalized result. *)
Theorem normalize_failure (result : JSON) :
  (well_formed result = false ↔
     ∃ msg, normalize_audd_result result = inl (AttributeError msg))
  ∧ (well_formed result = true ↔
       normalize_audd_result result = inr (spec_Normalize result))
  ∧ ∀ code detail,
      normalize_audd_result result ≠ inl (HTTPException code detail).
Proof.
  destruct (well_formed result) eqn:Hw.
  - pose proof (normalize_well_formed _ Hw) as Hn. rewrite Hn.
    split; [split; [done|by intros [msg ?]]|]. split; done.
  - destruct (normalize_ill_formed _ Hw) as [msg Hn]. rewrite Hn.
    split; [split; [by exists msg|done]|]. split; done.
Qed.

(** The normalizer reads a provider object only through [get] on nine
    keys, and a service entry only behind [or {}]. *)
Lemma normalize_ext (d d' : gmap string JSON) :
  (∀ k, k ∈ ["title"; "artist"; "album"; "release_date"; "timecode";
             "song_link"] →
        field (JDict d) k = field (JDict d') k) →
  (∀ k, k ∈ ["apple_music"; "spotify"; "deezer"] →
        py_or (field (JDict d) k) (JDict ∅)
          = py_or (field (JDict d') k) (JDict ∅)) →
  normalize_audd_result (JDict d) = normalize_audd_result (JDict d').
Proof.
  intros Hs Hv. unfold normalize_audd_result.
  rewrite !get_dict. cbn [mbind Res_bind].
  rewrite !(Hs "title"), !(Hs "artist"), !(Hs "album"),
    !(Hs "release_date"), !(Hs "timecode"), !(Hs "song_link")
    by (by apply (bool_decide_unpack _)).
  rewrite !(Hv "apple_music"), !(Hv "spotify"), !(Hv "deezer")
    by (by apply (bool_decide_unpack _)).
  done.
Qed.

Lemma field_insert_delete (d : gmap string JSON) (k k' : string) (v : JSON) :
  k ≠ k' → field (JDict (<[k:=v]> d)) k' = field (JDict (delete k d)) k'.
Proof.
  intros Hne. simpl. by rewrite lookup_insert_ne, lookup_delete_ne.
Qed.

(** X13.  For the normalizer an entry that is present with the value null is the
    same as an absent entry, whatever the key; for the three service
    entries this holds of every false value (an empty string, list or
    object, zero, false).  The outcome, result or exception, is the
    same. *)
Theorem null_entry_is_absent (d : gmap string JSON) (k : string) (v : JSON) :
  v = JNull
  ∨ (k ∈ ["apple_music"; "spotify"; "deezer"] ∧ truthy v = false) →
  normalize_audd_result (JDict (<[k:=v]> d))
    = normalize_audd_result (JDict (delete k d)).
Proof.
  intros Hv. apply normalize_ext.
  - intros k' Hk'. destruct (decide (k = k')) as [<-|Hne];
      [|by apply field_insert_delete].
    simpl. rewrite lookup_insert_eq, lookup_delete_eq. simpl.
    destruct Hv as [->|[Hk _]]; [done|].
    exfalso. revert Hk'. apply elem_of_cons in Hk as [->|Hk];
      [|apply elem_of_cons in Hk as [->|Hk];
        [|apply elem_of_cons in Hk as [->|Hk];
          [|by apply elem_of_nil in Hk]]];
      by apply (bool_decide_eq_false_1 _).
  - intros k' Hk'. destruct (decide (k = k')) as [<-|Hne];
      [|by rewrite field_insert_delete].
    simpl. rewrite lookup_insert_eq, lookup_delete_eq. simpl.
    destruct Hv as [->|[_ Hf]]; [done|].
    unfold py_or. by rewrite Hf.
Qed.

Lemma null_entry_is_absent_witness :
  normalize_audd_result
    (JDict (<["spotify" := JString ""]> title_only_result))
  = normalize_audd_result (JDict (delete "spotify" title_only_result)).
Proof.
  apply (null_entry_is_absent title_only_result "spotify" (JString "")).
  right. split; [by apply (bool_decide_unpack _)|reflexivity].
Defined.

Lemma normalize_failure_witness :
  ∃ msg, normalize_audd_result bad_service_result = inl (AttributeError msg).
Proof.
  exact (proj1 (proj1 (normalize_failure bad_service_result)) eq_refl).
Defined.

(** * The diagnostic endpoint *)




(** X14.  Whatever the configuration and the database module do, the diagnostic
    response has the same seven keys. *)
Theorem diagnostic_keys_stable tok imp db_url db_name :
  dom (test_database tok imp db_url db_name) = diagnostic_keys.
Proof.
  unfold test_database, dict.
  destruct imp as [|e|[db|]];
    [| | destruct (database.list_collection_names db) |];
    rewrite ?dom_insert_L, dom_list_to_map_L; reflexivity.
Qed.

(** X15.  The fields [database_url] and [database_name] report only whether the
    environment variables DATABASE_URL and DATABASE_NAME are set: the
    values stored while the database is inspected, "Configured" and the
    name of the database, are overwritten before the response is
    returned. *)
Theorem diagnostic_env_fields tok imp db_url db_name :
  test_database tok imp db_url db_name !! "database_url"
    = Some (JString (if opt_truthy db_url then "✅ Set" else "❌ Not Set"))
  ∧ test_database tok imp db_url db_name !! "database_name"
      = Some (JString (if opt_truthy db_name then "✅ Set" else "❌ Not Set")).
Proof.
  unfold test_database. cbv zeta. split.
  - by rewrite lookup_insert_ne, lookup_insert_eq.
  - by rewrite lookup_insert_eq.
Qed.

(** X16.  The field [collections] holds a list of at most ten entries: the first
    ten names when the database object exists and listing its collections
    succeeds, and the empty list in every other case. *)
Theorem diagnostic_collections tok imp db_url db_name :
  ∃ l,
    test_database tok imp db_url db_name !! "collections" = Some (JList l)
    ∧ length l ≤ 10
    ∧ (∀ db names,
         imp = imported (Some db) →
         database.list_collection_names db = inr names →
         l = take 10 names)
    ∧ ((¬ ∃ db names,
          imp = imported (Some db)
          ∧ database.list_collection_names db = inr names) →
       l = []).
Proof.
  unfold test_database, dict.
  destruct imp as [|e|[db|]];
    [| | destruct (database.list_collection_names db) as [e|names] eqn:Hl |].
  1,2,3,5: exists []; split; [reflexivity|]; split; [simpl; lia|];
    split; [intros db' names' [=]; congruence|done].
  exists (take 10 names). split; [reflexivity|].
  split; [rewrite length_take; lia|].
  split; [intros db' names' [= <-]; congruence|].
  intros H. exfalso. apply H. by exists db, names.
Qed.

(** X17.  The field [connection_status] is "Connected" exactly when the module
    was imported and its object is not None, also when listing the
    collections then failed; otherwise it is "Not Connected". *)
Theorem diagnostic_connection tok imp db_url db_name :
  ((∃ db, imp = imported (Some db)) →
   test_database tok imp db_url db_name !! "connection_status"
     = Some (JString "Connected"))
  ∧ ((¬ ∃ db, imp = imported (Some db)) →
     test_database tok imp db_url db_name !! "connection_status"
       = Some (JString "Not Connected")).
Proof.
  unfold test_database, dict.
  destruct imp as [|e|[db|]];
    [| | destruct (database.list_collection_names db) |];
    (split; [intros [db' [=]]|intros H]); try reflexivity;
    exfalso; apply H; by eexists.
Qed.

Lemma diagnostic_connection_witness :
  test_database sample_token (imported (Some broken_db)) None None
    !! "connection_status" = Some (JString "Connected")
  ∧ test_database sample_token ImportError None None
      !! "connection_status" = Some (JString "Not Connected").
Proof.
  split.
  - apply (proj1 (diagnostic_connection sample_token
                    (imported (Some broken_db)) None None)).
    by exists broken_db.
  - apply (proj2 (diagnostic_connection sample_token ImportError
                    None None)).
    by intros [db [=]].
Defined.




Lemma diagnostic_collections_witness :
  ∃ l,
    test_database sample_token (imported (Some sample_db)) None None
      !! "collections" = Some (JList l)
    ∧ length l ≤ 10
    ∧ l = JString <$> ["a"; "b"; "c"; "d"; "e"; "f"; "g"; "h"; "i"; "j"].
Proof.
  destruct (diagnostic_collections sample_token (imported (Some sample_db))
              None None) as (l & Hl & Hlen & Htake & _).
  exists l. split; [exact Hl|]. split; [exact Hlen|].
  exact (Htake sample_db _ eq_refl eq_refl).
Defined.

Lemma diagnostic_token_field tok imp db_url db_name :
  test_database tok imp db_url db_name !! "audd_api_token"
    = Some (set_or_not tok).
Proof.
  unfold test_database, dict.
  destruct imp as [|e|[db|]];
    [| | destruct (database.list_collection_names db) |]; reflexivity.
Qed.

(** X19.  The diagnostic and the identify handlers judge the credential alike:
    [test_database] reports the token as not set exactly when
    [identify_by_url] and [identify_by_file] refuse the request with the
    configuration error 400, whatever the request and the provider. *)
Theorem diagnostic_token_report tok imp db_url db_name provider payload file
    log :
  (test_database tok imp db_url db_name !! "audd_api_token"
     = Some (JString "❌ Not Set")
   ↔ snd (identify_by_url tok provider payload log)
       = inl (HTTPException 400
                "AUDD_API_TOKEN env var is not set on the server"))
  ∧ (test_database tok imp db_url db_name !! "audd_api_token"
       = Some (JString "❌ Not Set")
     ↔ snd (identify_by_file tok provider file log)
         = inl (HTTPException 400
                  "AUDD_API_TOKEN env var is not set on the server")).
Proof.
  rewrite diagnostic_token_field, identify_by_url_unfold,
    identify_by_file_unfold.
  unfold set_or_not. destruct (opt_truthy tok); cbn [negb]; cbv iota.
  - split; (split; [done|]).
    + destruct (negb (valid_url _)); [done|].
      cbv zeta. cbn [snd]. intros H. by apply attempt_http in H.
    + destruct (read file); cbn [snd]; intros H; by apply attempt_http in H.
  - split; done.
Qed.

Lemma diagnostic_token_report_witness :
  test_database None ImportError None None !! "audd_api_token"
    = Some (JString "❌ Not Set")
  ∧ snd (identify_by_url None provider_found sample_payload [])
      = inl (HTTPException 400
               "AUDD_API_TOKEN env var is not set on the server").
Proof.
  split; [reflexivity|].
  apply (proj1 (diagnostic_token_report None ImportError None None
                  provider_found sample_payload sample_clip [])).
  reflexivity.
Defined.
